(** * Resnet.py: the residual network notebook, embedded in Rocq

    The notebook is a linear script over the Keras API.  The script's own
    statements (the sequence of layer calls, the constants, the two
    [model.fit] calls, [lr_schedule]) are translated from [src/Resnet.py];
    the framework calls it makes are given a small executable model, each
    one documented where it is defined.

    Conventions:
    - a Python [int] is a [Z], except tensor dimensions and counts that the
      script only ever uses as sizes, which are [nat];
    - a Python [float] is a binary64 [float] (Rocq's primitive floats), so
      [1e-3 * 1e-3] is the rounded product Python computes;
    - the batch dimension ([None] in Keras) is left out of every shape. *)

From Stdlib Require Import ZArith QArith Floats Uint63 Lia.
From stdpp Require Import base list strings gmap.

Set Warnings "-inexact-float".

Open Scope string_scope.
Open Scope list_scope.
Open Scope nat_scope.

(** ** Shapes and the shape rules of the layers the script uses *)

Definition shape := list nat.

Inductive padding := same | valid.

(** [keras.utils.conv_utils.conv_output_length] at dilation 1:
    [output_length = input_length] for ['same'] and
    [input_length - filter_size + 1] for ['valid'], then
    [(output_length + stride - 1) // stride]. *)
Definition conv_output_length
    (input_length filter_size : nat) (pad : padding) (stride : nat) : nat :=
  let output_length :=
    match pad with
    | same => input_length
    | valid => input_length - filter_size + 1
    end in
  (output_length + stride - 1) / stride.

(** The configuration of a layer: the constructor arguments the script
    passes.  [strides] is the single integer Keras expands to a pair. *)
Inductive layer :=
  | InputLayer (input_shape : shape)
  | Conv2DLayer (filters : nat) (kernel_size : nat * nat) (pad : padding)
                (strides : nat) (kernel_regularizer : option float)
  | BatchNormalizationLayer
  | ActivationLayer (activation : string)
  | AddLayer
  | GlobalAveragePooling2DLayer
  | DenseLayer (units : nat).

(** One dimension of an element-wise merge
    ([_Merge._compute_elemwise_op_output_shape]): a dimension of size 1 is
    broadcast, two other sizes must agree. *)
Definition elemwise_dim (i j : nat) : option nat :=
  if Nat.eqb i 1 then Some j
  else if Nat.eqb j 1 then Some i
  else if Nat.eqb i j then Some i
  else None.

Fixpoint elemwise_zip (s1 s2 : shape) : option shape :=
  match s1, s2 with
  | i :: s1', j :: s2' =>
      match elemwise_dim i j, elemwise_zip s1' s2' with
      | Some d, Some s => Some (d :: s)
      | _, _ => None
      end
  | _, _ => Some []
  end.

(** The shorter shape is aligned with the end of the longer one. *)
Definition elemwise_shape (shape1 shape2 : shape) : option shape :=
  let (shape1, shape2) :=
    if Nat.ltb (length shape1) (length shape2) then (shape2, shape1)
    else (shape1, shape2) in
  let k := length shape1 - length shape2 in
  match elemwise_zip (drop k shape1) shape2 with
  | Some s => Some (take k shape1 ++ s)
  | None => None
  end.

(** [compute_output_shape] of each layer, channels last.  [None] is the
    [ValueError] Keras raises when a layer is called on inputs it does
    not accept. *)
Definition compute_output_shape (l : layer) (ins : list shape) : option shape :=
  match l, ins with
  | InputLayer s, [] => Some s
  | Conv2DLayer filters (kh, kw) pad strides _, [[h; w; _]] =>
      Some [conv_output_length h kh pad strides;
            conv_output_length w kw pad strides;
            filters]
  | BatchNormalizationLayer, [s] => Some s
  | ActivationLayer _, [s] => Some s
  | AddLayer, s1 :: s2 :: rest =>
      foldl (fun acc s => acc ≫= fun a => elemwise_shape a s)
            (elemwise_shape s1 s2) rest
  | GlobalAveragePooling2DLayer, [[_; _; c]] => Some [c]
  | DenseLayer units, [s] =>
      match s with
      | [] => None
      | _ => Some (take (length s - 1) s ++ [units])
      end
  | _, _ => None
  end.

(** ** The layer graph and the monad of graph construction *)

(** A node of the graph: a layer instance, the nodes its call read, and
    the shape of the tensor it produced. *)
Record node := Node {
  config : layer;
  inbound : list nat;
  output_shape : shape
}.

Definition graph := list node.

(** A symbolic tensor: the node that produced it and its shape. *)
Record tensor := Tensor {
  producer : nat;
  keras_shape : shape
}.

(** Building a graph threads the list of nodes created so far and stops
    at the first call Keras would reject. *)
Definition K (A : Type) : Type := graph → option (A * graph).

#[export] Instance K_ret : MRet K := fun A a g => Some (a, g).

#[export] Instance K_bind : MBind K := fun A B f m g =>
  match m g with
  | Some (a, g') => f a g'
  | None => None
  end.

(** Calling a fresh layer on tensors: the new node is appended and the
    tensor it produces is returned. *)
Definition call (l : layer) (xs : list tensor) : K tensor :=
  fun g =>
    match compute_output_shape l (keras_shape <$> xs) with
    | Some s =>
        Some (Tensor (length g) s, g ++ [Node l (producer <$> xs) s])
    | None => None
    end.

(** [for _ in range(n): x = body(x)] *)
Fixpoint for_range (n : nat) (body : tensor → K tensor) (x : tensor) : K tensor :=
  match n with
  | O => mret x
  | S n' => x' ← body x ; for_range n' body x'
  end.

(** The layer constructors under the names the script imports them by. *)
Module kr.
Definition l2 (l : float) : option float := Some l.
End kr.

Module kl.
Definition Input (input_shape : shape) : K tensor :=
  call (InputLayer input_shape) [].
Definition Conv2D (filters : nat) (kernel_size : nat * nat) (pad : padding)
    (strides : nat) (kernel_regularizer : option float) (x : tensor) : K tensor :=
  call (Conv2DLayer filters kernel_size pad strides kernel_regularizer) [x].
Definition BatchNormalization (x : tensor) : K tensor :=
  call BatchNormalizationLayer [x].
Definition Activation (activation : string) (x : tensor) : K tensor :=
  call (ActivationLayer activation) [x].
Definition add (xs : list tensor) : K tensor :=
  call AddLayer xs.
Definition GlobalAveragePooling2D (x : tensor) : K tensor :=
  call GlobalAveragePooling2DLayer [x].
Definition Dense (units : nat) (x : tensor) : K tensor :=
  call (DenseLayer units) [x].
End kl.

(** ** Arrays and label encoding *)

(** An n-dimensional array: its shape and its elements in row-major
    order. *)
Record ndarray (A : Type) := NDArray {
  ashape : shape;
  adata : list A
}.
Arguments NDArray {A} _ _.
Arguments ashape {A} _.
Arguments adata {A} _.

(** A two-dimensional float array, row by row. *)
Definition matrix := list (list float).

(** A [uint8] element read as a [float64]; every value of 0..255 is
    represented exactly. *)
Definition float_of_uint8 (p : Z) : float :=
  PrimFloat.of_uint63 (Uint63.of_Z p).

(** [x / v] for a [uint8] array [x] and a Python float [v]: numpy's true
    division, element by element in [float64]. *)
Definition true_divide (x : ndarray Z) (v : float) : ndarray float :=
  NDArray (ashape x) ((λ p, float_of_uint8 p / v)%float <$> adata x).

(** numpy's reading of an index into an axis of length [n]: negative
    indices count from the end, anything else out of range is an
    [IndexError]. *)
Definition normalize_index (i : Z) (n : nat) : option nat :=
  if bool_decide (0 ≤ i < Z.of_nat n)%Z then Some (Z.to_nat i)
  else if bool_decide (- Z.of_nat n ≤ i < 0)%Z
  then Some (Z.to_nat (i + Z.of_nat n))
  else None.

(** Modelled from the spec: [keras.utils.to_categorical] (library code,
    not in the repository), which the script's comment describes as
    converting class vectors to binary class matrices and the spec as
    producing one-hot label vectors.  On the ravelled labels it builds a
    matrix of zeros with one row per label and writes [1] at column
    [y[i]] of row [i], with numpy's indexing.  A [num_classes] of 0
    counts as not given and is replaced by [max(y) + 1]. *)
Definition to_categorical (y : list Z) (num_classes : nat) : option matrix :=
  num_classes ←
    match num_classes with
    | O =>
        match y with
        | [] => None
        | c :: y' =>
            let m := (foldr Z.max c y' + 1)%Z in
            if bool_decide (0 ≤ m)%Z then Some (Z.to_nat m) else None
        end
    | S _ => Some num_classes
    end ;
  mapM (λ c, i ← normalize_index c num_classes ;
             Some (<[i := 1%float]> (replicate num_classes 0%float))) y.

(** ** Training calls, callbacks and what they do *)

Inductive printable :=
  | PStr (s : string)
  | PFloat (v : float).

(** What a training run does to the world outside the model. *)
Inductive effect :=
  | Stdout (args : list printable)
  | SetLearningRate (lr : float)
  | SaveModel (epoch : nat) (filepath : string).

(** The two callbacks the script constructs, with the arguments it
    passes.  A schedule is a Python function of the epoch number; it
    returns the lines it prints and the learning rate. *)
Inductive callback :=
  | ModelCheckpoint (filepath monitor : string) (verbose : nat)
                    (save_best_only : bool)
  | LearningRateScheduler (schedule : Z → list (list printable) * float).

Record optimizer := RMSprop {
  lr : float;
  decay : float
}.

(** The arguments of one [model.fit] call; [callbacks] is [None] when the
    call does not pass any. *)
Record fit_call := FitCall {
  fit_x : ndarray float;
  fit_y : matrix;
  batch_size : nat;
  epochs : nat;
  validation_data : option (ndarray float * matrix);
  shuffle : bool;
  callbacks : option (list callback)
}.

(** The metrics Keras reports at the end of an epoch, by name. *)
Abbreviation logs := (gmap string Q).

(** Modelled from the spec: the comparison inside Keras's
    [ModelCheckpoint] (library code, not in the repository).  The
    monitored validation accuracy improves when it is strictly greater
    than the best value seen so far; before any value was seen ([None])
    every value improves. *)
Definition improved (current : Q) (best : option Q) : bool :=
  match best with
  | None => true
  | Some b => negb (Qle_bool current b)
  end.

(** Modelled from the spec: [on_epoch_begin] of the two Keras callbacks
    (library code, not in the repository).  The learning-rate scheduler
    calls the schedule on the epoch number and sets the optimizer's
    learning rate to the result; the checkpoint does nothing. *)
Definition on_epoch_begin (cb : callback) (epoch : nat) : list effect :=
  match cb with
  | LearningRateScheduler schedule =>
      let '(out, lr) := schedule (Z.of_nat epoch) in
      (Stdout <$> out) ++ [SetLearningRate lr]
  | ModelCheckpoint _ _ _ _ => []
  end.

(** Modelled from the spec: [on_epoch_end] of the two Keras callbacks
    (library code, not in the repository).  With [save_best_only] the
    checkpoint persists the model to [filepath] when the monitored metric
    improved and remembers the new best value; a metric missing from the
    logs is skipped.  Without [save_best_only] it saves every epoch. *)
Definition on_epoch_end (cb : callback) (epoch : nat) (l : logs)
    (best : option Q) : option Q * list effect :=
  match cb with
  | ModelCheckpoint filepath monitor _ save_best_only =>
      if save_best_only then
        match l !! monitor with
        | Some current =>
            if improved current best
            then (Some current, [SaveModel epoch filepath])
            else (best, [])
        | None => (best, [])
        end
      else (best, [SaveModel epoch filepath])
  | LearningRateScheduler _ => (best, [])
  end.

(** Modelled from the spec: the end of an epoch, every callback in the
    order of the list, each with its own best value. *)
Fixpoint epoch_end (cbs : list (callback * option Q)) (epoch : nat) (l : logs)
    : list (callback * option Q) * list effect :=
  match cbs with
  | [] => ([], [])
  | (cb, best) :: rest =>
      let '(best', out) := on_epoch_end cb epoch l best in
      let '(rest', outs) := epoch_end rest epoch l in
      ((cb, best') :: rest', out ++ outs)
  end.

(** Modelled from the spec: Keras's training loop as far as callbacks
    see it (library code, not in the repository).  [history] holds the
    logs training produces, one entry per epoch, from epoch [epoch] on. *)
Fixpoint run_epochs (cbs : list (callback * option Q)) (epoch : nat)
    (history : list logs) : list effect :=
  match history with
  | [] => []
  | l :: history' =>
      let begin := cbs ≫= λ cb, on_epoch_begin cb.1 epoch in
      let '(cbs', ends) := epoch_end cbs epoch l in
      begin ++ ends ++ run_epochs cbs' (S epoch) history'
  end.

(** Modelled from the spec: [model.fit] as far as callbacks see it.  It
    runs [epochs] epochs, numbered from 0, with fresh callbacks. *)
Definition fit (c : fit_call) (history : list logs) : list effect :=
  run_epochs ((λ cb, (cb, None)) <$> default [] (callbacks c)) 0
             (take (epochs c) history).

(** The epochs at which a run saved the model, and the paths it wrote. *)
Definition saved_epochs (out : list effect) : list nat :=
  omap (λ e, match e with SaveModel epoch _ => Some epoch | _ => None end) out.

Definition written_paths (out : list effect) : list string :=
  omap (λ e, match e with SaveModel _ p => Some p | _ => None end) out.

(** ** The script, cell by cell *)

(** *** In[13]: the data *)

(** What [kd.cifar10.load_data()] returns: [uint8] images and integer
    labels, for training and for testing. *)
Record dataset := Dataset {
  x_train0 : ndarray Z;
  y_train0 : list Z;
  x_test0 : ndarray Z;
  y_test0 : list Z
}.

Definition labels : list string :=
  ["airplane"; "car"; "bird"; "cat"; "deer"; "dog"; "frog"; "horse"; "ship"; "truck"].

(** Lines 45-46. *)
Definition x_train (ds : dataset) : ndarray float := true_divide (x_train0 ds) 255.
Definition x_test (ds : dataset) : ndarray float := true_divide (x_test0 ds) 255.

Definition N : nat := length labels.

(** Lines 51-52. *)
Definition y_train (ds : dataset) : option matrix := to_categorical (y_train0 ds) N.
Definition y_test (ds : dataset) : option matrix := to_categorical (y_test0 ds) N.

(** *** In[14]: the convolutional trunk *)

Definition reg : option float := kr.l2 1e-4%float.

(** The body of the three [for] loops (lines 78-88, 104-114, 130-139),
    which differ only in the number of filters.  Of the variables the body
    assigns, only [act1] is read again after the loop. *)
Definition residual_block (filters : nat) (act1 : tensor) : K tensor :=
  conv ← kl.Conv2D filters (3, 3) same 1 reg act1 ;
  bn ← kl.BatchNormalization conv ;
  act ← kl.Activation "relu" bn ;
  conv ← kl.Conv2D filters (3, 3) same 1 reg act ;
  bn ← kl.BatchNormalization conv ;
  skip ← kl.add [act1; bn] ;
  kl.Activation "relu" skip.

(** The two downsampling stages (lines 90-101 and 116-127). *)
Definition downsampling_block (filters : nat) (act1 : tensor) : K tensor :=
  conv ← kl.Conv2D filters (3, 3) same 2 reg act1 ;
  bn ← kl.BatchNormalization conv ;
  act ← kl.Activation "relu" bn ;
  conv ← kl.Conv2D filters (3, 3) same 1 reg act ;
  bn ← kl.BatchNormalization conv ;
  act1_downsampled ← kl.Conv2D filters (1, 1) same 2 reg act1 ;
  skip_downsampled ← kl.add [act1_downsampled; bn] ;
  kl.Activation "relu" skip_downsampled.

Definition trunk (inputs : tensor) : K tensor :=
  conv ← kl.Conv2D 16 (3, 3) same 1 reg inputs ;
  bn ← kl.BatchNormalization conv ;
  act1 ← kl.Activation "relu" bn ;
  act1 ← for_range 3 (residual_block 16) act1 ;
  act1 ← downsampling_block 32 act1 ;
  act1 ← for_range 2 (residual_block 32) act1 ;
  act1 ← downsampling_block 64 act1 ;
  for_range 2 (residual_block 64) act1.

(** *** In[16]: the classifier head *)

Record network := Network {
  inputs : tensor;
  act1 : tensor;
  final_dense : tensor;
  softmax : tensor
}.

(** Lines 69-158: the whole graph, from the input placeholder of shape
    [x_train.shape[1:]] to the softmax. *)
Definition build_network (input_shape : shape) : K network :=
  inputs ← kl.Input input_shape ;
  act1 ← trunk inputs ;
  gap ← kl.GlobalAveragePooling2D act1 ;
  bn ← kl.BatchNormalization gap ;
  final_dense ← kl.Dense N bn ;
  softmax ← kl.Activation "softmax" final_dense ;
  mret (Network inputs act1 final_dense softmax).

(** The graph the script builds on images of the given shape. *)
Definition resnet (input_shape : shape) : option (network * graph) :=
  build_network input_shape [].

(** *** In[17] and the cells after it: compiling and training *)

Definition opt : optimizer := RMSprop 0.001 1e-6.

Definition filepath : string := "./checkpoints".

Definition checkpoint : callback :=
  ModelCheckpoint filepath "val_acc" 1 true.

(** Lines 205-210.  [1e-3] is the float [0x1.0624dd2f1a9fcp-10]. *)
Definition lr_schedule (epoch : Z) : list (list printable) * float :=
  let lr := 1e-3%float in
  let lr := if (epoch >? 60)%Z then (lr * 1e-3)%float else lr in
  ([[PStr "Learning rate: "; PFloat lr]], lr).

Definition lr_scheduler : callback := LearningRateScheduler lr_schedule.

(** Lines 174-179: the first [model.fit], which passes no callbacks. *)
Definition first_fit (x : ndarray float) (y : matrix)
    (x_val : ndarray float) (y_val : matrix) : fit_call :=
  {| fit_x := x; fit_y := y; batch_size := 128; epochs := 100;
     validation_data := Some (x_val, y_val); shuffle := true;
     callbacks := None |}.

(** Lines 219-224: the second [model.fit]. *)
Definition second_fit (x : ndarray float) (y : matrix)
    (x_val : ndarray float) (y_val : matrix) : fit_call :=
  {| fit_x := x; fit_y := y; batch_size := 128; epochs := 100;
     validation_data := Some (x_val, y_val); shuffle := true;
     callbacks := Some [checkpoint; lr_scheduler] |}.

(** The calls into the training machinery, in the order the script makes
    them. *)
Inductive event :=
  | Compile (model : network * graph) (loss : string) (optimizer : optimizer)
            (metrics : list string)
  | Fit (c : fit_call).

(** The whole script on a dataset.  It stops at the first statement that
    raises: a label [to_categorical] cannot encode, or a layer call Keras
    rejects. *)
Definition script (ds : dataset) : option (list event) :=
  let x_train := x_train ds in
  let x_test := x_test ds in
  y_train ← y_train ds ;
  y_test ← y_test ds ;
  model ← resnet (drop 1 (ashape x_train)) ;
  Some [ Compile model "categorical_crossentropy" opt ["accuracy"];
         Fit (first_fit x_train y_train x_test y_test);
         Fit (second_fit x_train y_train x_test y_test) ].

(** The [model.fit] calls of a run of the script. *)
Definition fits (tr : list event) : list fit_call :=
  omap (λ e, match e with Fit c => Some c | _ => None end) tr.

(** CIFAR-10 images are 32 x 32 with 3 channels. *)
Definition cifar10_shape : shape := [32; 32; 3].

(** ** The graph, node by node *)

(** A stride-2 ['same'] convolution maps a length [n] to [ceil(n/2)]. *)
Definition halved (n : nat) : nat := (n + 1) / 2.

(** The seven nodes a [residual_block] appends when it is called on the
    tensor of node [x] and the graph has [n] nodes. *)
Definition residual_nodes (filters x n : nat) (s : shape) : list node :=
  [ Node (Conv2DLayer filters (3, 3) same 1 reg) [x] s;
    Node BatchNormalizationLayer [n] s;
    Node (ActivationLayer "relu") [n + 1] s;
    Node (Conv2DLayer filters (3, 3) same 1 reg) [n + 2] s;
    Node BatchNormalizationLayer [n + 3] s;
    Node AddLayer [x; n + 4] s;
    Node (ActivationLayer "relu") [n + 5] s ].

(** The eight nodes of a [downsampling_block]; [s] is the shape after
    downsampling. *)
Definition downsampling_nodes (filters x n : nat) (s : shape) : list node :=
  [ Node (Conv2DLayer filters (3, 3) same 2 reg) [x] s;
    Node BatchNormalizationLayer [n] s;
    Node (ActivationLayer "relu") [n + 1] s;
    Node (Conv2DLayer filters (3, 3) same 1 reg) [n + 2] s;
    Node BatchNormalizationLayer [n + 3] s;
    Node (Conv2DLayer filters (1, 1) same 2 reg) [x] s;
    Node AddLayer [n + 5; n + 4] s;
    Node (ActivationLayer "relu") [n + 6] s ].

Definition resnet_nodes (h w c : nat) : graph :=
  let s1 := [h; w; 16] in
  let s2 := [halved h; halved w; 32] in
  let s3 := [halved (halved h); halved (halved w); 64] in
  [ Node (InputLayer [h; w; c]) [] [h; w; c];
    Node (Conv2DLayer 16 (3, 3) same 1 reg) [0] s1;
    Node BatchNormalizationLayer [1] s1;
    Node (ActivationLayer "relu") [2] s1 ]
  ++ residual_nodes 16 3 4 s1
  ++ residual_nodes 16 10 11 s1
  ++ residual_nodes 16 17 18 s1
  ++ downsampling_nodes 32 24 25 s2
  ++ residual_nodes 32 32 33 s2
  ++ residual_nodes 32 39 40 s2
  ++ downsampling_nodes 64 46 47 s3
  ++ residual_nodes 64 54 55 s3
  ++ residual_nodes 64 61 62 s3
  ++ [ Node GlobalAveragePooling2DLayer [68] [64];
       Node BatchNormalizationLayer [69] [64];
       Node (DenseLayer N) [70] [N];
       Node (ActivationLayer "softmax") [71] [N] ].

Definition resnet_tensors (h w c : nat) : network :=
  {| inputs := Tensor 0 [h; w; c];
     act1 := Tensor 68 [halved (halved h); halved (halved w); 64];
     final_dense := Tensor 71 [N];
     softmax := Tensor 72 [N] |}.

(** ** Reading a graph *)

Definition is_add (l : layer) : bool :=
  match l with AddLayer => true | _ => false end.

Definition is_batch_norm (l : layer) : bool :=
  match l with BatchNormalizationLayer => true | _ => false end.

Definition is_relu (l : layer) : bool :=
  match l with ActivationLayer a => bool_decide (a = "relu") | _ => false end.

(** A 3x3 convolution, of any stride and width. *)
Definition is_conv3x3 (l : layer) : bool :=
  match l with Conv2DLayer _ (3, 3) _ _ _ => true | _ => false end.

(** A 1x1 convolution of stride 2 with ['same'] padding. *)
Definition is_projection (l : layer) : bool :=
  match l with Conv2DLayer _ (1, 1) same 2 _ => true | _ => false end.

(** The positions of the nodes whose layer satisfies [p]. *)
Definition nodes_where (p : layer → bool) (g : graph) : list nat :=
  omap (λ '(i, nd), if p (config nd) then Some i else None)
       (imap (λ i nd, (i, nd)) g).

(** The merge nodes the script creates with [kl.add]. *)
Definition add_nodes (g : graph) : list nat := nodes_where is_add g.

(** The nodes that read the output of node [i]. *)
Definition consumers (g : graph) (i : nat) : list nat :=
  omap (λ '(j, nd), if bool_decide (i ∈ inbound nd) then Some j else None)
       (imap (λ j nd, (j, nd)) g).

(** The single input of node [i], when its layer satisfies [p]. *)
Definition input_through (p : layer → bool) (g : graph) (i : nat) : option nat :=
  nd ← g !! i ;
  if p (config nd) then
    match inbound nd with
    | [j] => Some j
    | _ => None
    end
  else None.

(** Walking the residual branch backwards from its last node [b]:
    batch norm, 3x3 convolution, relu, batch norm, 3x3 convolution.  The
    result is the tensor [x] the branch [F] was applied to. *)
Definition branch_input (g : graph) (b : nat) : option nat :=
  c2 ← input_through is_batch_norm g b ;
  a ← input_through is_conv3x3 g c2 ;
  b1 ← input_through is_relu g a ;
  c1 ← input_through is_batch_norm g b1 ;
  input_through is_conv3x3 g c1.

(** The merge at node [a] adds the input [x] of its block to [F(x)]. *)
Definition identity_skip (g : graph) (a : nat) : Prop :=
  ∃ x b, inbound <$> g !! a = Some [x; b] ∧ branch_input g b = Some x.

(** The merge at node [a] adds a strided 1x1 convolution of the input [x]
    of its block to [F(x)]. *)
Definition projection_skip (g : graph) (a : nat) : Prop :=
  ∃ x p b, inbound <$> g !! a = Some [p; b] ∧ branch_input g b = Some x ∧
           input_through is_projection g p = Some x.

(** The output of node [a] is read by one node only, the next one, which
    is a relu. *)
Definition relu_follows (g : graph) (a : nat) : Prop :=
  consumers g a = [S a] ∧ input_through is_relu g (S a) = Some a.

(** The two tensors merged at node [a] have one and the same shape. *)
Definition add_shapes_match (g : graph) (a : nat) : Prop :=
  ∃ x y s, inbound <$> g !! a = Some [x; y] ∧
           output_shape <$> g !! x = Some s ∧
           output_shape <$> g !! y = Some s.

(** The merge at node [a] closes a downsampling block: from the block
    input [x] of shape [s_in], the residual branch starts with a stride-2
    3x3 convolution and the skip path is a stride-2 1x1 convolution with
    the same number of filters; both reach the merge with shape [s_out]. *)
Definition downsampling_skip (g : graph) (a : nat) (s_in s_out : shape) : Prop :=
  ∃ x p b c1 filters,
    inbound <$> g !! a = Some [p; b] ∧
    branch_input g b = Some x ∧
    g !! c1 = Some (Node (Conv2DLayer filters (3, 3) same 2 reg) [x] s_out) ∧
    g !! p = Some (Node (Conv2DLayer filters (1, 1) same 2 reg) [x] s_out) ∧
    output_shape <$> g !! x = Some s_in ∧
    output_shape <$> g !! b = Some s_out ∧
    last s_out = Some filters.

(** The property the residual-connection sentence asks of a graph: every
    merge adds the block input itself to the branch output, and a relu
    comes next. *)
Definition every_block_adds_its_input (g : graph) : Prop :=
  ∀ a, a ∈ add_nodes g → identity_skip g a ∧ relu_follows g a.

(** ** Stating the claims about data and training *)

(** A class label of the ten-class problem. *)
Definition valid_label (c : Z) : Prop := (0 ≤ c < 10)%Z.

(** [row] is the one-hot vector of label [c] over ten classes. *)
Definition one_hot (c : Z) (row : list float) : Prop :=
  length row = 10 ∧
  row !! Z.to_nat c = Some 1%float ∧
  ∀ j, j < 10 → j ≠ Z.to_nat c → row !! j = Some 0%float.

(** [0 <= v <= 1] in [float64]. *)
Definition in_unit_interval (v : float) : bool :=
  ((0 <=? v) && (v <=? 1))%float.

(** A dataset the script accepts: image arrays of rank 4 (sample, row,
    column, channel) and labels of the ten classes. *)
Definition well_formed (ds : dataset) : Prop :=
  length (ashape (x_train0 ds)) = 4 ∧
  Forall valid_label (y_train0 ds) ∧
  Forall valid_label (y_test0 ds).

(** The call passes both callbacks. *)
Definition uses_both_callbacks (c : fit_call) : Prop :=
  ∃ cbs, callbacks c = Some cbs ∧ checkpoint ∈ cbs ∧ lr_scheduler ∈ cbs.

(** The paths the checkpoint callbacks of a list are configured with. *)
Definition checkpoint_paths (cbs : list callback) : list string :=
  omap (λ cb, match cb with
              | ModelCheckpoint p _ _ _ => Some p
              | LearningRateScheduler _ => None
              end) cbs.

(** The logs of an epoch report the validation accuracy [v]. *)
Definition has_val_acc (l : logs) (v : Q) : Prop := l !! "val_acc" = Some v.

(** [v] is strictly above the remembered best value and above every
    value of [earlier]. *)
Definition beats (best : option Q) (earlier : list Q) (v : Q) : Prop :=
  (∀ b, best = Some b → (b < v)%Q) ∧ Forall (λ u, (u < v)%Q) earlier.

(** ** Sample inputs *)

(** One 2x2 colour image for training and one for testing. *)
Definition sample_dataset : dataset :=
  {| x_train0 := NDArray [1; 2; 2; 3]
                   [0; 255; 128; 17; 64; 200; 1; 254; 99; 30; 77; 180]%Z;
     y_train0 := [3]%Z;
     x_test0 := NDArray [1; 2; 2; 3]
                  [255; 0; 5; 250; 33; 66; 132; 7; 19; 210; 100; 50]%Z;
     y_test0 := [9]%Z |}.

(** Validation accuracies of three epochs: up, down, up. *)
Definition sample_accuracies : list Q := [1 # 2; 1 # 4; 3 # 4]%Q.

Definition sample_history : list logs :=
  (λ v, {[ "val_acc" := v ]}) <$> sample_accuracies.

(** ** Further readings of a graph *)

(** Every node reads only nodes created before it, so the list of nodes
    is a topological order of the graph. *)
Definition well_ordered (g : graph) : Prop :=
  ∀ i nd, g !! i = Some nd → Forall (λ j, j < i) (inbound nd).


Definition is_conv (l : layer) : bool :=
  match l with Conv2DLayer _ _ _ _ _ => true | _ => false end.


Definition is_dense (l : layer) : bool :=
  match l with DenseLayer _ => true | _ => false end.

(** The layers with a kernel: convolutions and dense layers. *)
Definition is_weighted (l : layer) : bool := is_conv l || is_dense l.

(** For each node, the greatest number of layers with a kernel on a path
    from the input up to and including the node. *)
Definition depths (g : graph) : list nat :=
  foldl (λ ds nd,
           ds ++ [max_list ((λ i, default 0 (ds !! i)) <$> inbound nd)
                  + (if is_weighted (config nd) then 1 else 0)])
        [] g.


(** A graph of one input placeholder, to call blocks on. *)
Definition sample_graph : graph := [Node (InputLayer [4; 4; 16]) [] [4; 4; 16]].

(** ** Running the construction *)

Lemma conv_same_stride1 n k : conv_output_length n k same 1 = n.
Proof.
  unfold conv_output_length.
  replace (n + 1 - 1) with n by lia. apply Nat.div_1_r.
Qed.

Lemma conv_same_stride2 n k : conv_output_length n k same 2 = halved n.
Proof.
  unfold conv_output_length, halved. f_equal. lia.
Qed.

Lemma elemwise_dim_same i : elemwise_dim i i = Some i.
Proof.
  unfold elemwise_dim. destruct (Nat.eqb i 1); [done|].
  by rewrite Nat.eqb_refl.
Qed.

Lemma elemwise_zip_same s : elemwise_zip s s = Some s.
Proof.
  induction s as [|i s IH]; [done|].
  cbn [elemwise_zip]. by rewrite elemwise_dim_same, IH.
Qed.

Lemma elemwise_shape_same s : elemwise_shape s s = Some s.
Proof.
  unfold elemwise_shape. rewrite Nat.ltb_irrefl, Nat.sub_diag.
  cbn [drop take]. by rewrite elemwise_zip_same.
Qed.

(** A bind runs its first computation and hands the result on. *)
Lemma bind_run {A B} (m : K A) (k : A → K B) g a g' :
  m g = Some (a, g') → (m ≫= k) g = k a g'.
Proof. intros Hm. unfold mbind, K_bind. by rewrite Hm. Qed.

Lemma call_run l xs s g :
  compute_output_shape l (keras_shape <$> xs) = Some s →
  call l xs g = Some (Tensor (length g) s, g ++ [Node l (producer <$> xs) s]).
Proof. intros Hs. unfold call. by rewrite Hs. Qed.

(** One layer call of the script: its shape rule is evaluated, the
    arithmetic of ['same'] convolutions and of shape-matched merges is
    rewritten, and the call is run. *)
Ltac shape_rule :=
  cbn [compute_output_shape fmap list_fmap keras_shape foldl];
  rewrite ?conv_same_stride1, ?conv_same_stride2, ?elemwise_shape_same;
  reflexivity.

Ltac run_call :=
  first [ erewrite bind_run; [| apply call_run; shape_rule ]
        | erewrite call_run; [| shape_rule ] ].

Ltac tidy_graph :=
  cbn [fmap list_fmap producer keras_shape];
  rewrite <- ?app_assoc, ?length_app; cbn [length app].

Lemma residual_block_run filters x h w g :
  residual_block filters (Tensor x [h; w; filters]) g =
  Some (Tensor (length g + 6) [h; w; filters],
        g ++ residual_nodes filters x (length g) [h; w; filters]).
Proof.
  unfold residual_block, kl.Conv2D, kl.BatchNormalization, kl.Activation, kl.add.
  repeat run_call. tidy_graph. reflexivity.
Qed.

Lemma downsampling_block_run filters x h w c g :
  downsampling_block filters (Tensor x [h; w; c]) g =
  Some (Tensor (length g + 7) [halved h; halved w; filters],
        g ++ downsampling_nodes filters x (length g)
               [halved h; halved w; filters]).
Proof.
  unfold downsampling_block, kl.Conv2D, kl.BatchNormalization, kl.Activation,
    kl.add.
  repeat run_call. tidy_graph. reflexivity.
Qed.

Lemma bind_assoc_run {A B C} (m : K A) (f : A → K B) (k : B → K C) g :
  ((m ≫= f) ≫= k) g = (m ≫= λ a, f a ≫= k) g.
Proof. unfold mbind, K_bind. by destruct (m g) as [[a g']|]. Qed.

Lemma ret_run {A B} (a : A) (k : A → K B) g : (mret a ≫= k) g = k a g.
Proof. reflexivity. Qed.

(** One statement of the script run on a graph that is known node by
    node: the statement is picked by its syntax, and the lengths that
    number the new nodes are evaluated. *)
Ltac run_step :=
  lazymatch goal with
  | |- mbind _ (mbind _ _) _ = _ => rewrite bind_assoc_run
  | |- mbind _ (mret _) _ = _ => rewrite ret_run
  | |- mbind _ (call _ _) _ = _ =>
      erewrite bind_run; [| apply call_run; shape_rule ]
  | |- mbind _ (residual_block _ _) _ = _ =>
      erewrite bind_run; [| apply residual_block_run ]
  | |- mbind _ (downsampling_block _ _) _ = _ =>
      erewrite bind_run; [| apply downsampling_block_run ]
  end;
  cbn [app length fmap list_fmap producer keras_shape
       residual_nodes downsampling_nodes Nat.add].

(** The construction succeeds on every image shape of rank 3, with the
    graph listed in [resnet_nodes]. *)
Lemma resnet_run h w c :
  resnet [h; w; c] = Some (resnet_tensors h w c, resnet_nodes h w c).
Proof.
  unfold resnet, build_network, trunk, kl.Input, kl.Conv2D,
    kl.BatchNormalization, kl.Activation, kl.GlobalAveragePooling2D, kl.Dense.
  cbn [for_range].
  repeat run_step.
  reflexivity.
Qed.

(** ** The definitions on concrete inputs *)

Example resnet_on_cifar10 :
  (λ m, (keras_shape (act1 m.1), keras_shape (softmax m.1), length m.2))
    <$> resnet cifar10_shape = Some ([8; 8; 64], [10], 73).
Proof. vm_compute. reflexivity. Qed.

Example resnet_rejects_flat_input : resnet [3072] = None.
Proof. reflexivity. Qed.

Example mismatched_add_is_rejected :
  compute_output_shape AddLayer [[32; 32; 16]; [16; 16; 32]] = None.
Proof. reflexivity. Qed.

Example to_categorical_of_3 :
  to_categorical [3%Z] N = Some [[0; 0; 0; 1; 0; 0; 0; 0; 0; 0]%float].
Proof. reflexivity. Qed.

Example to_categorical_out_of_range : to_categorical [10%Z] N = None.
Proof. reflexivity. Qed.

Example lr_schedule_at_60 :
  lr_schedule 60 = ([[PStr "Learning rate: "; PFloat 1e-3]], 1e-3%float).
Proof. reflexivity. Qed.

Example lr_schedule_at_61 :
  lr_schedule 61 = ([[PStr "Learning rate: "; PFloat 1e-6]], 1e-6%float).
Proof. reflexivity. Qed.

Example sample_run_saves :
  saved_epochs
    (fit (second_fit (x_train sample_dataset) [] (x_test sample_dataset) [])
         sample_history) = [0; 2].
Proof. vm_compute. reflexivity. Qed.

Example first_fit_has_no_effect :
  fit (first_fit (x_train sample_dataset) [] (x_test sample_dataset) [])
      sample_history = [].
Proof. vm_compute. reflexivity. Qed.

Example normalized_255 : (float_of_uint8 255 / 255 = 1)%float.
Proof. reflexivity. Qed.

Lemma halved_double n : halved (2 * n) = n.
Proof.
  unfold halved. symmetry. apply (Nat.div_unique _ 2 n 1); lia.
Qed.

(** ** Residual connections *)

Lemma resnet_add_nodes h w c :
  add_nodes (resnet_nodes h w c) = [9; 16; 23; 31; 38; 45; 53; 60; 67].
Proof. reflexivity. Qed.

Ltac by_reading_graph :=
  first [ split; reflexivity
        | eexists _, _; split; reflexivity
        | eexists _, _, _; repeat split; reflexivity ].

(** C1, as stated, fails on the CIFAR-10 graph: the merge at node 31
    closes the first downsampling block (lines 90-101), whose branch was
    applied to node 24, and its first operand is node 30, a convolution of
    node 24, not node 24 itself. *)
Lemma downsampling_merge_is_not_identity :
  ∃ model, resnet cifar10_shape = Some model ∧
           ¬ every_block_adds_its_input model.2.
Proof.
  eexists. split; [apply resnet_run|].
  cbn [snd]. intros Hall. destruct (Hall 31) as [(x & b & Hin & Hbr) _].
  - rewrite resnet_add_nodes. do 3 apply list_elem_of_further.
    apply list_elem_of_here.
  - cbv in Hin. injection Hin as <- <-. cbv in Hbr. discriminate.
Qed.

(** C1, amended: on every image shape the graph is built and has nine
    merges.  Each merge is followed by a relu that is the only reader of
    the sum, so the addition comes before the activation.  In the seven
    blocks of the three loops the sum is [x + F(x)] for the block input
    [x]; in the two downsampling blocks it is [W x + F(x)], where [W] is a
    stride-2 1x1 convolution. *)
Theorem residual_blocks_add_then_relu h w c :
  ∃ net g, resnet [h; w; c] = Some (net, g) ∧
    add_nodes g = [9; 16; 23; 31; 38; 45; 53; 60; 67] ∧
    Forall (relu_follows g) (add_nodes g) ∧
    Forall (identity_skip g) [9; 16; 23; 38; 45; 60; 67] ∧
    Forall (projection_skip g) [31; 53].
Proof.
  eexists _, _. split; [apply resnet_run|].
  split; [reflexivity|]. rewrite resnet_add_nodes.
  repeat split; repeat (constructor; [by_reading_graph|]); constructor.
Qed.

(** ** Shapes at the merges *)

(** C10: on every image shape the graph is built, the two operands of
    every [kl.add] have the same shape, and in the two downsampling
    blocks (16 to 32 filters, then 32 to 64) both the stride-2 branch and
    the stride-2 1x1 convolution on the skip path produce the halved
    spatial size with the doubled number of channels. *)
Theorem skip_additions_are_shape_matched h w c :
  ∃ net g, resnet [h; w; c] = Some (net, g) ∧
    Forall (add_shapes_match g) (add_nodes g) ∧
    downsampling_skip g 31 [h; w; 16] [halved h; halved w; 32] ∧
    downsampling_skip g 53 [halved h; halved w; 32]
                      [halved (halved h); halved (halved w); 64].
Proof.
  eexists _, _. split; [apply resnet_run|].
  rewrite resnet_add_nodes. split; [|split].
  - repeat (constructor; [by_reading_graph|]); constructor.
  - exists 24, 30, 29, 25, 32. repeat split; reflexivity.
  - exists 46, 52, 51, 47, 64. repeat split; reflexivity.
Qed.

(** ** Labels and classes *)

Lemma one_hot_row c :
  valid_label c →
  one_hot c (<[Z.to_nat c := 1%float]> (replicate 10 0%float)).
Proof.
  intros [Hlo Hhi]. assert (Z.to_nat c < 10) by lia.
  split; [|split].
  - by rewrite length_insert, length_replicate.
  - apply list_lookup_insert_eq. by rewrite length_replicate.
  - intros j Hj Hne. rewrite list_lookup_insert_ne by done.
    by apply lookup_replicate_2.
Qed.

Lemma normalize_index_valid c :
  valid_label c → normalize_index c N = Some (Z.to_nat c).
Proof.
  intros Hc. unfold normalize_index.
  rewrite bool_decide_eq_true_2; [done|]. exact Hc.
Qed.

Lemma to_categorical_valid y :
  Forall valid_label y →
  ∃ m, to_categorical y N = Some m ∧ Forall2 one_hot y m.
Proof.
  intros Hy.
  exists ((λ c, <[Z.to_nat c := 1%float]> (replicate 10 0%float)) <$> y).
  split.
  - unfold to_categorical. cbn [N labels length mbind option_bind].
    apply mapM_Some_2, Forall2_fmap_r, Forall_Forall2_diag.
    eapply Forall_impl; [exact Hy|]. intros c Hc. cbn beta.
    fold labels; fold N. by rewrite normalize_index_valid.
  - apply Forall2_fmap_r, Forall_Forall2_diag.
    eapply Forall_impl; [exact Hy|]. intros c Hc. by apply one_hot_row.
Qed.

Lemma to_categorical_width y m :
  to_categorical y N = Some m → Forall (λ row, length row = 10) m.
Proof.
  unfold to_categorical. cbn [N labels length mbind option_bind].
  intros Hm%mapM_Some_1.
  induction Hm as [|c row y m Hrow _ IH]; constructor; [|exact IH].
  destruct (normalize_index c 10) as [i|]; [|done].
  injection Hrow as <-. rewrite length_insert. reflexivity.
Qed.

(** C5: the classifier has ten classes.  The list of labels has length
    10 and [N] is 10; whatever [to_categorical] makes of [y_train] and
    [y_test] has rows of width 10; and on every image shape the node that
    feeds the softmax is a dense layer of 10 units with output shape
    [10]. *)
Theorem ten_classes :
  length labels = 10 ∧ N = 10 ∧
  (∀ ds m, y_train ds = Some m ∨ y_test ds = Some m →
           Forall (λ row, length row = 10) m) ∧
  (∀ h w c, ∃ net g,
      resnet [h; w; c] = Some (net, g) ∧
      g !! producer (final_dense net) = Some (Node (DenseLayer 10) [70] [10]) ∧
      g !! producer (softmax net) =
        Some (Node (ActivationLayer "softmax") [producer (final_dense net)] [10])).
Proof.
  split; [reflexivity|]. split; [reflexivity|]. split.
  - intros ds m [Hm|Hm]; exact (to_categorical_width _ _ Hm).
  - intros h w c. eexists _, _. split; [apply resnet_run|].
    split; reflexivity.
Qed.

(** C7: labels of the ten classes are encoded one-hot, for training and
    for testing alike: the conversion succeeds, and the row of a label
    [c] has width 10, holds 1 at index [c] and 0 at every other index. *)
Theorem labels_are_one_hot ds :
  Forall valid_label (y_train0 ds) →
  Forall valid_label (y_test0 ds) →
  ∃ m_train m_test,
    y_train ds = Some m_train ∧ y_test ds = Some m_test ∧
    Forall2 one_hot (y_train0 ds) m_train ∧
    Forall2 one_hot (y_test0 ds) m_test.
Proof.
  intros Htrain Htest.
  destruct (to_categorical_valid _ Htrain) as (m1 & Hm1 & Hrows1).
  destruct (to_categorical_valid _ Htest) as (m2 & Hm2 & Hrows2).
  by exists m1, m2.
Qed.

(** The sample dataset has labels of the ten classes. *)
Lemma labels_are_one_hot_sample :
  Forall valid_label (y_train0 sample_dataset) ∧
  Forall valid_label (y_test0 sample_dataset) ∧
  ∃ m_train m_test,
    y_train sample_dataset = Some m_train ∧
    y_test sample_dataset = Some m_test ∧
    Forall2 one_hot (y_train0 sample_dataset) m_train ∧
    Forall2 one_hot (y_test0 sample_dataset) m_test.
Proof.
  assert (Htrain : Forall valid_label (y_train0 sample_dataset)).
  { apply Forall_singleton. unfold valid_label. lia. }
  assert (Htest : Forall valid_label (y_test0 sample_dataset)).
  { apply Forall_singleton. unfold valid_label. lia. }
  split; [exact Htrain|]. split; [exact Htest|].
  exact (labels_are_one_hot sample_dataset Htrain Htest).
Defined.

(** ** Normalisation *)

(** All 256 pixel values, checked one by one. *)
Lemma every_uint8_in_unit_interval :
  forallb (λ k, in_unit_interval (float_of_uint8 (Z.of_nat k) / 255))
          (seq 0 256) = true.
Proof. vm_compute. reflexivity. Qed.

Lemma uint8_in_unit_interval p :
  (0 ≤ p ≤ 255)%Z → in_unit_interval (float_of_uint8 p / 255) = true.
Proof.
  intros Hp.
  pose proof (proj1 (forallb_forall _ _) every_uint8_in_unit_interval
                (Z.to_nat p)) as Hk.
  cbn beta in Hk. rewrite Z2Nat.id in Hk by lia.
  apply Hk, in_seq. lia.
Qed.

(** C6: training and test images are both divided by 255 element by
    element, and pixel values of 0..255 are taken into the closed
    interval [0, 1]. *)
Theorem normalized_pixels_in_unit_interval ds :
  Forall (λ p, 0 ≤ p ≤ 255)%Z (adata (x_train0 ds)) →
  Forall (λ p, 0 ≤ p ≤ 255)%Z (adata (x_test0 ds)) →
  adata (x_train ds) = (λ p, float_of_uint8 p / 255)%float <$> adata (x_train0 ds) ∧
  adata (x_test ds) = (λ p, float_of_uint8 p / 255)%float <$> adata (x_test0 ds) ∧
  Forall (λ v, in_unit_interval v = true) (adata (x_train ds)) ∧
  Forall (λ v, in_unit_interval v = true) (adata (x_test ds)).
Proof.
  intros Htrain Htest.
  split; [reflexivity|]. split; [reflexivity|].
  unfold x_train, x_test, true_divide. cbn [adata].
  split; apply Forall_fmap; (eapply Forall_impl; [eassumption|]);
    intros p Hp; by apply uint8_in_unit_interval.
Qed.

(** The sample dataset has pixels of 0..255. *)
Lemma normalized_pixels_sample :
  Forall (λ p, 0 ≤ p ≤ 255)%Z (adata (x_train0 sample_dataset)) ∧
  Forall (λ p, 0 ≤ p ≤ 255)%Z (adata (x_test0 sample_dataset)) ∧
  Forall (λ v, in_unit_interval v = true) (adata (x_train sample_dataset)) ∧
  Forall (λ v, in_unit_interval v = true) (adata (x_test sample_dataset)).
Proof.
  assert (Htrain : Forall (λ p, 0 ≤ p ≤ 255)%Z (adata (x_train0 sample_dataset))).
  { repeat (apply Forall_cons_2; [lia|]). apply Forall_nil_2. }
  assert (Htest : Forall (λ p, 0 ≤ p ≤ 255)%Z (adata (x_test0 sample_dataset))).
  { repeat (apply Forall_cons_2; [lia|]). apply Forall_nil_2. }
  split; [exact Htrain|]. split; [exact Htest|].
  exact (proj2 (proj2
    (normalized_pixels_in_unit_interval sample_dataset Htrain Htest))).
Defined.

(** ** The learning-rate schedule *)

Lemma lr_schedule_early e : (e ≤ 60)%Z → (lr_schedule e).2 = 1e-3%float.
Proof.
  intros He. unfold lr_schedule. cbn [snd].
  rewrite Z.gtb_ltb, (proj2 (Z.ltb_ge 60 e)) by lia. reflexivity.
Qed.

Lemma lr_schedule_late e : (60 < e)%Z → (lr_schedule e).2 = 1e-6%float.
Proof.
  intros He. unfold lr_schedule. cbn [snd].
  rewrite Z.gtb_ltb, (proj2 (Z.ltb_lt 60 e)) by lia. reflexivity.
Qed.

(** C9: the schedule returns [1e-3] up to and including epoch 60 and
    [1e-6] (the float product [1e-3 * 1e-3]) after it, and nothing
    else. *)
Theorem lr_schedule_two_values e :
  (lr_schedule e).2 = (if (e <=? 60)%Z then 1e-3 else 1e-6)%float ∧
  ((lr_schedule e).2 = 1e-3%float ∨ (lr_schedule e).2 = 1e-6%float) ∧
  (lr_schedule 60).2 = 1e-3%float ∧ (lr_schedule 61).2 = 1e-6%float.
Proof.
  split; [|split; [|split; reflexivity]].
  - destruct (Z.leb_spec e 60).
    + by apply lr_schedule_early.
    + by apply lr_schedule_late.
  - destruct (Z.le_gt_cases e 60).
    + left. by apply lr_schedule_early.
    + right. by apply lr_schedule_late.
Qed.

(** C2: the schedule never increases: a later epoch gets a learning rate
    that is at most the one of an earlier epoch, compared in [float64]. *)
Theorem lr_schedule_nonincreasing e1 e2 :
  (e1 ≤ e2)%Z →
  ((lr_schedule e2).2 <=? (lr_schedule e1).2)%float = true.
Proof.
  intros Hle.
  destruct (Z.le_gt_cases e1 60) as [H1|H1], (Z.le_gt_cases e2 60) as [H2|H2];
    try lia.
  - by rewrite !lr_schedule_early.
  - by rewrite lr_schedule_late, lr_schedule_early.
  - by rewrite !lr_schedule_late.
Qed.

(** Epochs 60 and 61, on either side of the step. *)
Lemma lr_schedule_nonincreasing_sample :
  (60 ≤ 61)%Z ∧ ((lr_schedule 61).2 <=? (lr_schedule 60).2)%float = true.
Proof.
  assert (Hle : (60 ≤ 61)%Z) by lia.
  split; [exact Hle|]. exact (lr_schedule_nonincreasing 60 61 Hle).
Defined.

(** ** The training calls of the script *)

(** On a well-formed dataset no statement of the script raises, and the
    calls it makes are known. *)
Lemma script_runs ds :
  well_formed ds →
  ∃ model m_train m_test,
    y_train ds = Some m_train ∧ y_test ds = Some m_test ∧
    script ds =
      Some [ Compile model "categorical_crossentropy" opt ["accuracy"];
             Fit (first_fit (x_train ds) m_train (x_test ds) m_test);
             Fit (second_fit (x_train ds) m_train (x_test ds) m_test) ].
Proof.
  intros (Hrank & Htrain & Htest).
  destruct (to_categorical_valid _ Htrain) as (m1 & Hm1 & _).
  destruct (to_categorical_valid _ Htest) as (m2 & Hm2 & _).
  destruct (ashape (x_train0 ds)) as [|n [|h [|w [|c [|]]]]] eqn:Hshape;
    try discriminate Hrank.
  exists (resnet_tensors h w c, resnet_nodes h w c), m1, m2.
  split; [exact Hm1|]. split; [exact Hm2|].
  assert (Hx : drop 1 (ashape (x_train ds)) = [h; w; c]).
  { unfold x_train, true_divide. cbn [ashape]. by rewrite Hshape. }
  unfold script. fold (y_train ds) in Hm1. fold (y_test ds) in Hm2.
  rewrite Hm1, Hm2. cbn [mbind option_bind].
  by rewrite Hx, resnet_run.
Qed.

Lemma sample_dataset_well_formed : well_formed sample_dataset.
Proof.
  split; [reflexivity|].
  split; apply Forall_singleton; unfold valid_label; lia.
Qed.

(** C4, as stated, fails on the sample dataset: the script runs, and its
    first [model.fit] (lines 174-179) passes no callbacks. *)
Lemma first_fit_passes_no_callbacks :
  ∃ tr, script sample_dataset = Some tr ∧
        ¬ Forall uses_both_callbacks (fits tr).
Proof.
  destruct (script_runs _ sample_dataset_well_formed)
    as (model & m1 & m2 & _ & _ & Hrun).
  eexists. split; [exact Hrun|].
  cbn [fits omap list_omap]. intros Hall.
  apply Forall_cons_1 in Hall as [(cbs & Hcbs & _) _]. discriminate Hcbs.
Qed.

(** C4, amended: on a well-formed dataset the script makes two
    [model.fit] calls.  The second one passes the checkpoint and the
    learning-rate scheduler as callbacks; the first one passes none. *)
Theorem second_fit_uses_both_callbacks ds :
  well_formed ds →
  ∃ tr c1 c2,
    script ds = Some tr ∧ fits tr = [c1; c2] ∧
    callbacks c1 = None ∧
    callbacks c2 = Some [checkpoint; lr_scheduler] ∧
    uses_both_callbacks c2.
Proof.
  intros Hds.
  destruct (script_runs _ Hds) as (model & m1 & m2 & _ & _ & Hrun).
  eexists _, _, _. split; [exact Hrun|].
  split; [reflexivity|]. split; [reflexivity|]. split; [reflexivity|].
  eexists. split; [reflexivity|].
  split; [apply list_elem_of_here|apply list_elem_of_further, list_elem_of_here].
Qed.

(** The sample dataset is well formed. *)
Lemma second_fit_uses_both_callbacks_sample :
  well_formed sample_dataset ∧
  ∃ tr c1 c2,
    script sample_dataset = Some tr ∧ fits tr = [c1; c2] ∧
    callbacks c1 = None ∧
    callbacks c2 = Some [checkpoint; lr_scheduler] ∧
    uses_both_callbacks c2.
Proof.
  split; [exact sample_dataset_well_formed|].
  exact (second_fit_uses_both_callbacks sample_dataset
           sample_dataset_well_formed).
Defined.

(** ** What the callbacks write *)

Lemma saved_epochs_app out1 out2 :
  saved_epochs (out1 ++ out2) = saved_epochs out1 ++ saved_epochs out2.
Proof. apply omap_app. Qed.

Lemma written_paths_app out1 out2 :
  written_paths (out1 ++ out2) = written_paths out1 ++ written_paths out2.
Proof. apply omap_app. Qed.

(** The beginning of an epoch saves nothing. *)
Lemma on_epoch_begin_saves_nothing cb epoch :
  saved_epochs (on_epoch_begin cb epoch) = [] ∧
  written_paths (on_epoch_begin cb epoch) = [].
Proof.
  destruct cb as [? ? ? ?|schedule]; [done|]. cbn [on_epoch_begin].
  destruct (schedule (Z.of_nat epoch)) as [out rate].
  rewrite saved_epochs_app, written_paths_app.
  induction out as [|line out [IH1 IH2]]; [done|].
  split; [exact IH1|exact IH2].
Qed.

Lemma epoch_begin_saves_nothing (cbs : list (callback * option Q)) epoch :
  saved_epochs (cbs ≫= λ cb, on_epoch_begin cb.1 epoch) = [] ∧
  written_paths (cbs ≫= λ cb, on_epoch_begin cb.1 epoch) = [].
Proof.
  induction cbs as [|cb cbs [IH1 IH2]]; [done|].
  rewrite bind_cons, saved_epochs_app, written_paths_app, IH1, IH2.
  destruct (on_epoch_begin_saves_nothing cb.1 epoch) as [-> ->]. done.
Qed.

Lemma checkpoint_paths_cons cb cbs :
  checkpoint_paths (cb :: cbs) = checkpoint_paths [cb] ++ checkpoint_paths cbs.
Proof. apply (omap_app _ [cb] cbs). Qed.

(** Whatever the end of an epoch writes goes to the path of a checkpoint
    callback. *)
Lemma on_epoch_end_written cb epoch l best p :
  p ∈ written_paths (on_epoch_end cb epoch l best).2 →
  p ∈ checkpoint_paths [cb].
Proof.
  destruct cb as [fp monitor verbose [|]|schedule]; cbn [on_epoch_end].
  - destruct (l !! monitor) as [current|]; [destruct (improved current best)|];
      cbn; [done| |]; by intros ?%elem_of_nil.
  - done.
  - by intros ?%elem_of_nil.
Qed.

Lemma epoch_end_written cbs epoch l p :
  p ∈ written_paths (epoch_end cbs epoch l).2 → p ∈ checkpoint_paths cbs.*1.
Proof.
  induction cbs as [|[cb best] cbs IH]; cbn [epoch_end].
  - by intros ?%elem_of_nil.
  - pose proof (on_epoch_end_written cb epoch l best p) as Hcb.
    destruct (on_epoch_end cb epoch l best) as [best' out].
    destruct (epoch_end cbs epoch l) as [cbs' outs].
    cbn [snd fst fmap list_fmap] in *.
    rewrite written_paths_app, checkpoint_paths_cons, !elem_of_app.
    intros [?|?]; [left|right]; auto.
Qed.

Lemma epoch_end_callbacks cbs epoch l :
  (epoch_end cbs epoch l).1.*1 = cbs.*1.
Proof.
  induction cbs as [|[cb best] cbs IH]; [done|]. cbn [epoch_end].
  destruct (on_epoch_end cb epoch l best) as [best' out].
  destruct (epoch_end cbs epoch l) as [cbs' outs].
  cbn [fst fmap list_fmap] in *. by rewrite IH.
Qed.

Lemma run_epochs_written cbs epoch history p :
  p ∈ written_paths (run_epochs cbs epoch history) →
  p ∈ checkpoint_paths cbs.*1.
Proof.
  revert cbs epoch.
  induction history as [|l history IH]; intros cbs epoch; cbn [run_epochs].
  - by intros ?%elem_of_nil.
  - pose proof (epoch_end_written cbs epoch l p) as Hend.
    pose proof (epoch_end_callbacks cbs epoch l) as Hsame.
    destruct (epoch_end cbs epoch l) as [cbs' ends]. cbn [fst snd] in *.
    rewrite !written_paths_app, !elem_of_app.
    destruct (epoch_begin_saves_nothing cbs epoch) as [_ ->].
    intros [?%elem_of_nil|[?|Hrest]]; [done|auto|].
    rewrite <- Hsame. by apply (IH cbs' (S epoch)).
Qed.

Lemma fit_written c history p :
  p ∈ written_paths (fit c history) →
  p ∈ checkpoint_paths (default [] (callbacks c)).
Proof.
  unfold fit. intros Hp%run_epochs_written.
  by rewrite <- list_fmap_compose, list_fmap_id in Hp.
Qed.

(** C8: in a run of the script, whatever logs training produces, every
    file a [model.fit] call writes through its callbacks is written to
    ["./checkpoints"], the one path the script configures. *)
Theorem checkpoints_is_the_only_written_path ds tr c history p :
  script ds = Some tr →
  c ∈ fits tr →
  p ∈ written_paths (fit c history) →
  p = "./checkpoints".
Proof.
  unfold script. intros Hrun Hc Hp%fit_written.
  destruct (y_train ds) as [m1|]; [|done].
  destruct (y_test ds) as [m2|]; [|done].
  destruct (resnet _) as [model|]; [|done].
  cbn [mbind option_bind] in Hrun. injection Hrun as <-.
  cbn [fits omap list_omap] in Hc.
  apply elem_of_cons in Hc as [->|Hc]; [by apply elem_of_nil in Hp|].
  apply list_elem_of_singleton in Hc as ->.
  by apply list_elem_of_singleton in Hp.
Qed.

(** A run of the script on the sample dataset that does write. *)
Lemma checkpoints_path_sample :
  ∃ tr c,
    script sample_dataset = Some tr ∧ c ∈ fits tr ∧
    "./checkpoints" ∈ written_paths (fit c sample_history) ∧
    "./checkpoints" = "./checkpoints".
Proof.
  destruct (script_runs _ sample_dataset_well_formed)
    as (model & m1 & m2 & _ & _ & Hrun).
  eexists _, (second_fit (x_train sample_dataset) m1 (x_test sample_dataset) m2).
  assert (Hc : second_fit (x_train sample_dataset) m1 (x_test sample_dataset) m2
               ∈ fits [ Compile model "categorical_crossentropy" opt ["accuracy"];
                        Fit (first_fit (x_train sample_dataset) m1
                                       (x_test sample_dataset) m2);
                        Fit (second_fit (x_train sample_dataset) m1
                                        (x_test sample_dataset) m2) ]).
  { apply list_elem_of_further, list_elem_of_here. }
  assert (Hp : "./checkpoints" ∈
               written_paths (fit (second_fit (x_train sample_dataset) m1
                                              (x_test sample_dataset) m2)
                                  sample_history)).
  { vm_compute. apply list_elem_of_here. }
  split; [exact Hrun|]. split; [exact Hc|]. split; [exact Hp|].
  exact (checkpoints_is_the_only_written_path _ _ _ _ _ Hrun Hc Hp).
Defined.

(** ** When the checkpoint saves *)

Lemma improved_true current best :
  improved current best = true ↔ ∀ b, best = Some b → (b < current)%Q.
Proof.
  destruct best as [b|]; cbn [improved].
  - rewrite negb_true_iff. split.
    + intros Hn b' [= <-]. apply Qnot_le_lt. intros Hle.
      apply Qle_bool_iff in Hle. congruence.
    + intros Hlt. specialize (Hlt b eq_refl).
      destruct (Qle_bool current b) eqn:Hle; [|done].
      apply Qle_bool_iff in Hle. exfalso. by apply (Qlt_not_le _ _ Hlt).
  - split; [by intros _ b [=]|done].
Qed.

(** The end of an epoch under the callbacks of the second [model.fit]. *)
Lemma epoch_end_script best st epoch l v :
  has_val_acc l v →
  epoch_end [(checkpoint, best); (lr_scheduler, st)] epoch l =
  ([(checkpoint, if improved v best then Some v else best); (lr_scheduler, st)],
   if improved v best then [SaveModel epoch filepath] else []).
Proof.
  intros Hv. unfold has_val_acc in Hv.
  cbn [epoch_end on_epoch_end checkpoint lr_scheduler]. rewrite Hv.
  by destruct (improved v best).
Qed.

(** The invariant of the run: the remembered best value is the greatest
    accuracy seen so far, so an epoch saves exactly when its accuracy
    beats the best value the run started with and every accuracy since. *)
Lemma checkpoint_saves best st epoch history vs :
  Forall2 has_val_acc history vs →
  ∀ k, k ∈ saved_epochs
             (run_epochs [(checkpoint, best); (lr_scheduler, st)] epoch history) ↔
       ∃ i v, k = epoch + i ∧ vs !! i = Some v ∧ beats best (take i vs) v.
Proof.
  intros Hlogs. revert best epoch.
  induction Hlogs as [|l v history vs Hl _ IH]; intros best epoch k.
  - cbn [run_epochs saved_epochs omap list_omap]. split.
    + by intros ?%elem_of_nil.
    + by intros (i & v & _ & Hv & _).
  - cbn [run_epochs]. rewrite (epoch_end_script _ _ _ _ _ Hl).
    rewrite !saved_epochs_app.
    destruct (epoch_begin_saves_nothing
                [(checkpoint, best); (lr_scheduler, st)] epoch) as [-> _].
    cbn [app]. rewrite elem_of_app, IH.
    destruct (improved v best) eqn:Himp.
    + cbn [saved_epochs omap list_omap]. rewrite list_elem_of_singleton.
      pose proof (proj1 (improved_true v best) Himp) as Hbest. split.
      * intros [->|(i & v' & -> & Hv' & Hb & Hall)].
        -- exists 0, v. split; [lia|]. split; [done|].
           split; [done|apply Forall_nil_2].
        -- exists (S i), v'. split; [lia|]. split; [done|]. cbn [take]. split.
           ++ intros b Hb'. eapply Qlt_trans; [by apply Hbest|by apply Hb].
           ++ apply Forall_cons_2; [by apply Hb|done].
      * intros ([|i] & v' & -> & Hv' & Hb & Hall).
        -- left. lia.
        -- right. exists i, v'. cbn [take] in Hall.
           apply Forall_cons_1 in Hall as [Hv Hall].
           split; [lia|]. split; [done|]. split; [by intros b [= <-]|done].
    + cbn [saved_epochs omap list_omap]. rewrite elem_of_nil. split.
      * intros [[]|(i & v' & -> & Hv' & Hb & Hall)].
        exists (S i), v'. split; [lia|]. split; [done|]. cbn [take].
        split; [done|]. apply Forall_cons_2; [|done].
        destruct best as [b|]; [|done]. cbn [improved] in Himp.
        apply negb_false_iff, Qle_bool_iff in Himp.
        eapply Qle_lt_trans; [exact Himp|by apply Hb].
      * intros ([|i] & v' & -> & Hv' & Hb & Hall).
        -- injection Hv' as <-.
           pose proof (proj2 (improved_true v best) Hb). congruence.
        -- right. exists i, v'. cbn [take] in Hall.
           apply Forall_cons_1 in Hall as [Hv Hall].
           split; [lia|]. by split.
Qed.

(** C3: in the second [model.fit], when every epoch reports a validation
    accuracy, the model is saved at epoch [k] if and only if [k] is one of
    the 100 epochs and its accuracy is strictly above the accuracy of
    every earlier epoch: a save exactly on improvement over the best value
    so far, and no save otherwise. *)
Theorem checkpoint_saves_exactly_on_improvement x y xv yv history vs k :
  Forall2 has_val_acc history vs →
  k ∈ saved_epochs (fit (second_fit x y xv yv) history) ↔
  k < 100 ∧ ∃ v, vs !! k = Some v ∧ Forall (λ u, (u < v)%Q) (take k vs).
Proof.
  intros Hlogs. unfold fit.
  cbn [callbacks second_fit default epochs fmap list_fmap].
  rewrite (checkpoint_saves None None 0 _ (take 100 vs))
    by by apply Forall2_take.
  split.
  - intros (i & v & -> & Hv & _ & Hall).
    apply lookup_take_Some in Hv as [Hv Hi]. split; [lia|].
    exists v. split; [done|]. rewrite take_take in Hall.
    by replace (i `min` 100) with i in Hall by lia.
  - intros (Hk & v & Hv & Hall). exists k, v. split; [done|].
    split; [by apply lookup_take_Some|]. split; [by intros b [=]|].
    rewrite take_take. by replace (k `min` 100) with k by lia.
Qed.

Lemma sample_history_reports_accuracy :
  Forall2 has_val_acc sample_history sample_accuracies.
Proof.
  apply Forall2_fmap_l, Forall_Forall2_diag, Forall_forall.
  intros v _. apply lookup_singleton_eq.
Qed.

(** The third epoch of the sample history. *)
Lemma checkpoint_saves_sample :
  Forall2 has_val_acc sample_history sample_accuracies ∧
  (2 ∈ saved_epochs
         (fit (second_fit (x_train sample_dataset) [] (x_test sample_dataset) [])
              sample_history) ↔
   2 < 100 ∧ ∃ v, sample_accuracies !! 2 = Some v ∧
                  Forall (λ u, (u < v)%Q) (take 2 sample_accuracies)).
Proof.
  split; [exact sample_history_reports_accuracy|].
  exact (checkpoint_saves_exactly_on_improvement
           (x_train sample_dataset) [] (x_test sample_dataset) []
           sample_history sample_accuracies 2
           sample_history_reports_accuracy).
Defined.

(** ** Blocks on any graph *)

Lemma well_ordered_app g nodes :
  well_ordered g →
  (∀ k nd, nodes !! k = Some nd → Forall (λ j, j < length g + k) (inbound nd)) →
  well_ordered (g ++ nodes).
Proof.
  intros Hg Hnodes i nd Hi. unfold graph in *.
  destruct (decide (i < length g)) as [Hlt|Hge].
  - rewrite lookup_app_l in Hi by done. by apply Hg.
  - rewrite lookup_app_r in Hi by lia.
    apply Hnodes in Hi. by replace (length g + (i - length g)) with i in Hi by lia.
Qed.

Ltac new_nodes_ordered :=
  let k := fresh "k" in let nd := fresh "nd" in let Hk := fresh "Hk" in
  intros k nd Hk;
  repeat (destruct k as [|k]; [injection Hk as <-; cbn [inbound];
                                repeat (apply Forall_cons_2; [lia|]);
                                apply Forall_nil_2|]);
  discriminate Hk.

Lemma residual_nodes_ordered filters x s g :
  well_ordered g → x < length g →
  well_ordered (g ++ residual_nodes filters x (length g) s).
Proof.
  intros Hg Hx. apply well_ordered_app; [done|]. new_nodes_ordered.
Qed.


Lemma sample_graph_ordered : well_ordered sample_graph.
Proof.
  intros [|i] nd Hi; [|done]. injection Hi as <-. apply Forall_nil_2.
Qed.

(** The loops of lines 78-88, 104-114 and 130-139, for any number of
    iterations and on any graph: called on an existing tensor with as
    many channels as the block has filters, the loop never raises, leaves
    the nodes already in the graph as they are, appends exactly seven
    nodes per iteration, keeps the graph topologically ordered, and
    returns a tensor of the shape it was given. *)
Theorem residual_loop_invariant n filters x h w g :
  well_ordered g → x < length g →
  ∃ t g',
    for_range n (residual_block filters) (Tensor x [h; w; filters]) g
      = Some (t, g') ∧
    g `prefix_of` g' ∧ length g' = length g + 7 * n ∧ well_ordered g' ∧
    keras_shape t = [h; w; filters] ∧ producer t < length g'.
Proof.
  revert x g. induction n as [|n IH]; intros x g Hg Hx.
  - exists (Tensor x [h; w; filters]), g.
    split; [reflexivity|]. split; [done|]. split; [lia|]. by repeat split.
  - destruct (IH (length g + 6)
                 (g ++ residual_nodes filters x (length g) [h; w; filters]))
      as (t & g' & Hrun & Hpre & Hlen & Hord & Hshape & Ht).
    { by apply residual_nodes_ordered. }
    { rewrite length_app. cbn [length residual_nodes]. lia. }
    exists t, g'. split.
    + cbn [for_range]. erewrite bind_run; [exact Hrun|].
      apply residual_block_run.
    + split; [by eapply prefix_app_l|].
      rewrite length_app in Hlen. cbn [length residual_nodes] in Hlen.
      split; [lia|]. by repeat split.
Qed.

(** Three iterations on the sample graph. *)
Lemma residual_loop_sample :
  well_ordered sample_graph ∧ 0 < length sample_graph ∧
  ∃ t g',
    for_range 3 (residual_block 16) (Tensor 0 [4; 4; 16]) sample_graph
      = Some (t, g') ∧
    sample_graph `prefix_of` g' ∧ length g' = length sample_graph + 7 * 3 ∧
    well_ordered g' ∧ keras_shape t = [4; 4; 16] ∧ producer t < length g'.
Proof.
  assert (Hx : 0 < length sample_graph) by (cbn; lia).
  split; [exact sample_graph_ordered|]. split; [exact Hx|].
  exact (residual_loop_invariant 3 16 0 4 4 sample_graph
           sample_graph_ordered Hx).
Defined.



Lemma bind_fail {A B} (m : K A) (k : A → K B) g :
  m g = None → (m ≫= k) g = None.
Proof. intros Hm. unfold mbind, K_bind. by rewrite Hm. Qed.

Lemma elemwise_dim_mismatch i j :
  i ≠ j → i ≠ 1 → j ≠ 1 → elemwise_dim i j = None.
Proof.
  intros Hij Hi Hj. unfold elemwise_dim.
  by rewrite !(proj2 (Nat.eqb_neq _ _)).
Qed.

Lemma elemwise_shape_channel_mismatch h w c filters :
  c ≠ filters → c ≠ 1 → filters ≠ 1 →
  elemwise_shape [h; w; c] [h; w; filters] = None.
Proof.
  intros Hne Hc Hf. unfold elemwise_shape. cbn [length Nat.ltb Nat.leb].
  cbn [Nat.sub drop take elemwise_zip].
  by rewrite !elemwise_dim_same, elemwise_dim_mismatch.
Qed.

(** The body of the loops raises when the channels of its input differ
    from its number of filters and neither of the two is 1: the residual
    branch is built, and [kl.add] (lines 87, 113, 138) rejects the two
    shapes.  This is why the stages that change the number of filters
    cannot use the loop body. *)
Theorem residual_block_rejects_channel_mismatch filters x h w c g :
  c ≠ filters → c ≠ 1 → filters ≠ 1 →
  residual_block filters (Tensor x [h; w; c]) g = None.
Proof.
  intros Hne Hc Hf.
  unfold residual_block, kl.Conv2D, kl.BatchNormalization, kl.Activation, kl.add.
  do 5 run_call. apply bind_fail. unfold call.
  cbn [compute_output_shape fmap list_fmap keras_shape foldl].
  by rewrite elemwise_shape_channel_mismatch.
Qed.

(** The loop body with 32 filters on a tensor of 16 channels. *)
Lemma residual_block_mismatch_sample :
  16 ≠ 32 ∧ 16 ≠ 1 ∧ 32 ≠ 1 ∧
  residual_block 32 (Tensor 0 [4; 4; 16]) sample_graph = None.
Proof.
  assert (H1 : 16 ≠ 32) by lia. assert (H2 : 16 ≠ 1) by lia.
  assert (H3 : 32 ≠ 1) by lia.
  split; [exact H1|]. split; [exact H2|]. split; [exact H3|].
  exact (residual_block_rejects_channel_mismatch 32 0 4 4 16 sample_graph
           H1 H2 H3).
Defined.

(** ** The whole network *)






(** The network of lines 69-158 is the 20-layer residual network: on
    every image shape the longest path from the input to the softmax
    passes through 20 layers with a kernel, and the graph holds 19
    convolutions of size 3x3, 2 of size 1x1 (the skip paths of the
    downsampling stages), 1 dense layer, 20 batch normalisations, 19
    relus and 9 additions. *)
Theorem resnet_is_twenty_layers_deep h w c :
  ∃ net g, resnet [h; w; c] = Some (net, g) ∧
    depths g !! producer (softmax net) = Some 20 ∧
    max_list (depths g) = 20 ∧
    length (nodes_where is_conv3x3 g) = 19 ∧
    length (nodes_where is_projection g) = 2 ∧
    length (nodes_where is_conv g) = 21 ∧
    length (nodes_where is_dense g) = 1 ∧
    length (nodes_where is_batch_norm g) = 20 ∧
    length (nodes_where is_relu g) = 19 ∧
    length (add_nodes g) = 9.
Proof.
  eexists _, _. split; [apply resnet_run|]. by repeat split.
Qed.



(** ** More on the data cell *)

(** All pairs of pixel values, checked one by one. *)
Lemma every_uint8_pair_keeps_order :
  forallb (λ p, forallb (λ q,
             implb (p <? q)
                   (float_of_uint8 (Z.of_nat p) / 255
                    <? float_of_uint8 (Z.of_nat q) / 255)%float)
           (seq 0 256)) (seq 0 256) = true.
Proof. vm_compute. reflexivity. Qed.

(** The division by 255 of lines 45-46 is strictly increasing on pixel
    values in [float64]: a brighter pixel stays strictly brighter, so no
    two of the 256 values are merged by the rounding. *)
Theorem normalization_is_strictly_increasing p q :
  (0 ≤ p)%Z → (p < q)%Z → (q ≤ 255)%Z →
  (float_of_uint8 p / 255 <? float_of_uint8 q / 255)%float = true.
Proof.
  intros Hp Hpq Hq.
  pose proof every_uint8_pair_keeps_order as Hall.
  rewrite forallb_forall in Hall.
  specialize (Hall (Z.to_nat p)). rewrite forallb_forall in Hall.
  specialize (Hall ltac:(apply in_seq; lia) (Z.to_nat q)
                   ltac:(apply in_seq; lia)).
  rewrite !Z2Nat.id in Hall by lia.
  rewrite (proj2 (Nat.ltb_lt _ _)) in Hall by lia. exact Hall.
Qed.

(** Pixel values 127 and 128. *)
Lemma normalization_increasing_sample :
  (0 ≤ 127)%Z ∧ (127 < 128)%Z ∧ (128 ≤ 255)%Z ∧
  (float_of_uint8 127 / 255 <? float_of_uint8 128 / 255)%float = true.
Proof.
  assert (H1 : (0 ≤ 127)%Z) by lia. assert (H2 : (127 < 128)%Z) by lia.
  assert (H3 : (128 ≤ 255)%Z) by lia.
  split; [exact H1|]. split; [exact H2|]. split; [exact H3|].
  exact (normalization_is_strictly_increasing 127 128 H1 H2 H3).
Defined.




(** ** More on the learning-rate schedule *)

Lemma lr_schedule_run_early len : ∀ start,
  start + len ≤ 61 →
  (λ e, (lr_schedule (Z.of_nat e)).2) <$> seq start len
  = replicate len 1e-3%float.
Proof.
  induction len as [|len IH]; intros start Hle; [done|].
  cbn [seq fmap list_fmap replicate]. f_equal.
  - apply lr_schedule_early. lia.
  - apply IH. lia.
Qed.

Lemma lr_schedule_run_late len : ∀ start,
  61 ≤ start →
  (λ e, (lr_schedule (Z.of_nat e)).2) <$> seq start len
  = replicate len 1e-6%float.
Proof.
  induction len as [|len IH]; intros start Hle; [done|].
  cbn [seq fmap list_fmap replicate]. f_equal.
  - apply lr_schedule_late. lia.
  - apply IH. lia.
Qed.

(** The schedule of lines 205-210 over a training of [n] epochs,
    numbered from 0: the first 61 epochs (0 to 60) get [1e-3], which is
    the learning rate the optimizer of line 168 was created with, and
    every later epoch gets [1e-6].  For the 100 epochs of the second
    [model.fit] that is 61 epochs at [1e-3] and 39 at [1e-6]. *)
Theorem lr_schedule_over_epochs n :
  (λ e, (lr_schedule (Z.of_nat e)).2) <$> seq 0 n
  = replicate (n `min` 61) (lr opt) ++ replicate (n - 61) 1e-6%float.
Proof.
  change (lr opt) with 1e-3%float.
  destruct (decide (n ≤ 61)) as [Hle|Hgt].
  - replace (n `min` 61) with n by lia. replace (n - 61) with 0 by lia.
    rewrite app_nil_r. apply lr_schedule_run_early. lia.
  - replace (n `min` 61) with 61 by lia.
    replace n with (61 + (n - 61)) at 1 by lia.
    rewrite seq_app, fmap_app.
    rewrite lr_schedule_run_early by lia.
    by rewrite lr_schedule_run_late by lia.
Qed.

(** ** More on the training calls *)


